(** * Luxuria API: the catalog-resolution fallback protocol

    A shallow embedding of the request handlers of [main.py] and of the
    payload schemas of [schemas.py], followed by the properties of the
    fallback protocol: listing and detail lookup against the document store
    with the static sample catalog behind them, and the three write
    endpoints. *)

From Stdlib Require Import String Ascii List Bool ZArith Lia Floats.
Import ListNotations.
Local Open Scope string_scope.
Local Open Scope list_scope.

Set Warnings "-register-all".

(** ** Python values *)

(** The values that occur in documents: JSON-like data plus the store's
    native identifiers.  A [dict] is an association list in insertion order,
    the order in which Python iterates and serialises it. *)
Inductive Value : Type :=
| VNone
| VBool (b : bool)
| VInt (z : Z)
| VFloat (f : float)
| VStr (s : string)
| VObjectId (hex : string)
| VList (items : list Value)
| VDict (fields : list (string * Value)).

Definition Doc := list (string * Value).

(** [d.get(k)]: the first binding of [k], [None] when there is none. *)
Fixpoint dict_find (k : string) (d : Doc) : option Value :=
  match d with
  | [] => None
  | (k', v) :: rest => if String.eqb k' k then Some v else dict_find k rest
  end.

Definition dict_get (k : string) (d : Doc) : Value :=
  match dict_find k d with
  | Some v => v
  | None => VNone
  end.

(** [k in d]. *)
Definition dict_mem (k : string) (d : Doc) : bool :=
  match dict_find k d with
  | Some _ => true
  | None => false
  end.

(** [d[k] = v]: an existing key keeps its place, a new one goes last. *)
Fixpoint dict_set (k : string) (v : Value) (d : Doc) : Doc :=
  match d with
  | [] => [(k, v)]
  | (k', v') :: rest =>
      if String.eqb k' k then (k, v) :: rest else (k', v') :: dict_set k v rest
  end.

(** ** Exceptions *)

(** A computation that returns or raises.  An exception of the [Exception]
    hierarchy is represented by its message, which is all the handlers ever
    look at ([str(e)]). *)
Inductive Result (A : Type) : Type :=
| Ok (a : A)
| Raise (msg : string).
Arguments Ok {A} a.
Arguments Raise {A} msg.

Definition bind {A B : Type} (r : Result A) (k : A -> Result B) : Result B :=
  match r with
  | Ok a => k a
  | Raise e => Raise e
  end.

Notation "x <- r ;; k" := (bind r (fun x => k))
  (at level 61, r at next level, right associativity).

Fixpoint mapM {A B : Type} (f : A -> Result B) (l : list A) : Result (list B) :=
  match l with
  | [] => Ok []
  | a :: rest =>
      b <- f a ;;
      bs <- mapM f rest ;;
      Ok (b :: bs)
  end.

(** What a handler hands back to the framework: a JSON body, an
    [HTTPException] with its status code and detail, or an exception that
    no handler caught. *)
Inductive Response (A : Type) : Type :=
| Return (body : A)
| HTTPException (status_code : nat) (detail : string)
| Uncaught (msg : string).
Arguments Return {A} body.
Arguments HTTPException {A} status_code detail.
Arguments Uncaught {A} msg.

Definition respond {A : Type} (r : Result A) : Response A :=
  match r with
  | Ok a => Return a
  | Raise e => Uncaught e
  end.

(** ** Python operators on values *)

(** [d[k]], which raises [KeyError] on a missing key. *)
Definition dict_index (k : string) (d : Doc) : Result Value :=
  match dict_find k d with
  | Some v => Ok v
  | None => Raise ("'" ++ k ++ "'")
  end.

(** [v == s] for a [str] [s]: only an equal string is equal to a string. *)
Definition eq_str (v : Value) (s : string) : bool :=
  match v with
  | VStr s' => String.eqb s' s
  | _ => false
  end.

(** [v is b] for a [bool] [b]: [True] and [False] are singletons, so only
    the same boolean is identical to [b]. *)
Definition is_bool (v : Value) (b : bool) : bool :=
  match v with
  | VBool b' => Bool.eqb b' b
  | _ => false
  end.

(** Truth value of an [Optional[str]]: [None] and the empty string are
    false. *)
Definition truthy (s : option string) : bool :=
  match s with
  | None => false
  | Some "" => false
  | Some _ => true
  end.

(** A [str] is written as its UTF-8 encoding.  A continuation byte is one of
    the form [10xxxxxx]; a character is a byte that is not a continuation
    byte together with the continuation bytes that follow it. *)
Definition is_continuation (c : ascii) : bool :=
  match c with
  | Ascii _ _ _ _ _ _ b6 b7 => b7 && negb b6
  end.

Definition continues (p : string) : bool :=
  match p with
  | String c _ => is_continuation c
  | EmptyString => false
  end.

(** The characters of a [str], in order. *)
Fixpoint code_points (s : string) : list string :=
  match s with
  | EmptyString => []
  | String c rest =>
      match code_points rest with
      | p :: ps =>
          if continues p then String c p :: ps
          else String c EmptyString :: p :: ps
      | [] => [String c EmptyString]
      end
  end.

Definition join (ps : list string) : string :=
  fold_right String.append EmptyString ps.

(** [s[:n]]: the first [n] characters of [s]. *)
Definition slice_to (n : nat) (s : string) : string :=
  join (firstn n (code_points s)).

Definition chars (s : string) : list Value := map VStr (code_points s).

(** [for x in v]: lists yield their items, strings their characters, dicts
    their keys; anything else raises [TypeError]. *)
Definition iter (v : Value) : Result (list Value) :=
  match v with
  | VList items => Ok items
  | VStr s => Ok (chars s)
  | VDict fields => Ok (map (fun kv => VStr (fst kv)) fields)
  | _ => Raise "object is not iterable"
  end.

(** [[p for p in l if test p]] where the test may raise. *)
Fixpoint filterM {A : Type} (test : A -> Result bool) (l : list A)
  : Result (list A) :=
  match l with
  | [] => Ok []
  | a :: rest =>
      b <- test a ;;
      keep <- filterM test rest ;;
      Ok (if b then a :: keep else keep)
  end.

(** ** The sample catalog *)

Definition sample_products : list Doc :=
  [ [ ("_id", VStr "demo-royal-chrono");
      ("title", VStr "Royal Chrono 42mm");
      ("description", VStr "Swiss automatic chronograph crafted in 18k rose gold with sapphire crystal.");
      ("price", VFloat 18990.0%float);
      ("category", VStr "watches");
      ("images", VList
         [ VStr "https://images.unsplash.com/photo-1518544801976-3e188ea47b1d?q=80&w=1600&auto=format&fit=crop";
           VStr "https://images.unsplash.com/photo-1523170335258-f5ed11844a49?q=80&w=1600&auto=format&fit=crop" ]);
      ("in_stock", VBool true);
      ("featured", VBool true) ];
    [ ("_id", VStr "demo-diamond-aurora");
      ("title", VStr "Aurora Diamond Necklace");
      ("description", VStr "Hand-set VS1 diamonds on platinum. Timeless brilliance for evening glamour.");
      ("price", VFloat 12950.0%float);
      ("category", VStr "jewelry");
      ("images", VList
         [ VStr "https://images.unsplash.com/photo-1520962918287-7448c2878f65?q=80&w=1600&auto=format&fit=crop" ]);
      ("in_stock", VBool true);
      ("featured", VBool true) ];
    [ ("_id", VStr "demo-maldives-escape");
      ("title", VStr "Maldives Water Villa Escape");
      ("description", VStr "5 nights in an overwater villa with private plunge pool and butler service.");
      ("price", VFloat 8990.0%float);
      ("category", VStr "holidays");
      ("images", VList
         [ VStr "https://images.unsplash.com/photo-1500375592092-40eb2168fd21?q=80&w=1600&auto=format&fit=crop" ]);
      ("in_stock", VBool true);
      ("featured", VBool true) ];
    [ ("_id", VStr "demo-silk-sofa");
      ("title", VStr "Silk & Walnut Lounge Sofa");
      ("description", VStr "Handcrafted Italian sofa in walnut with bespoke silk upholstery.");
      ("price", VFloat 7490.0%float);
      ("category", VStr "home");
      ("images", VList
         [ VStr "https://images.unsplash.com/photo-1501045661006-fcebe0257c3f?q=80&w=1600&auto=format&fit=crop" ]);
      ("in_stock", VBool true);
      ("featured", VBool false) ];
    [ ("_id", VStr "demo-platinum-massager");
      ("title", VStr "Platinum Deep Tissue Massager");
      ("description", VStr "Medical-grade percussive therapy device with intelligent pressure control.");
      ("price", VFloat 499.0%float);
      ("category", VStr "health");
      ("images", VList
         [ VStr "https://images.unsplash.com/photo-1615634260167-c8cdede054de?q=80&w=1600&auto=format&fit=crop" ]);
      ("in_stock", VBool true);
      ("featured", VBool false) ] ].

Definition CATEGORIES : list Doc :=
  [ [ ("id", VStr "watches"); ("name", VStr "Watches") ];
    [ ("id", VStr "jewelry"); ("name", VStr "Jewelry") ];
    [ ("id", VStr "holidays"); ("name", VStr "Holiday Destinations") ];
    [ ("id", VStr "home"); ("name", VStr "Home Living") ];
    [ ("id", VStr "health"); ("name", VStr "Health") ] ].

(** ** Payload schemas ([schemas.py]) *)

(** [HttpUrl] and [EmailStr] fields are carried as their text. *)
Record Product : Type := {
  title : string;
  description : option string;
  price : float;
  category : string;
  images : list string;
  in_stock : bool;
  featured : bool
}.

Record DistributorApplication : Type := {
  name : string;
  email : string;
  company : option string;
  website : option string;
  location : option string;
  message : option string
}.

Record OrderItem : Type := {
  product_id : string;
  item_title : string;
  quantity : Z;
  item_price : float;
  image : option string
}.

Record CheckoutRequest : Type := {
  items : list OrderItem;
  customer_name : string;
  customer_email : string;
  address : string;
  city : string;
  country : string
}.

Definition opt_str (o : option string) : Value :=
  match o with
  | Some s => VStr s
  | None => VNone
  end.

Definition OrderItem_dump (i : OrderItem) : Value :=
  VDict [ ("product_id", VStr (product_id i));
          ("title", VStr (item_title i));
          ("quantity", VInt (quantity i));
          ("price", VFloat (item_price i));
          ("image", opt_str (image i)) ].

(** [data.model_dump()]: the request as a dict, field by field in
    declaration order, nested models dumped in turn. *)
Definition model_dump (data : CheckoutRequest) : Doc :=
  [ ("items", VList (map OrderItem_dump (items data)));
    ("customer_name", VStr (customer_name data));
    ("customer_email", VStr (customer_email data));
    ("address", VStr (address data));
    ("city", VStr (city data));
    ("country", VStr (country data)) ].

(** What [create_document] is handed: a model instance or a plain dict. *)
Inductive Payload : Type :=
| OfProduct (p : Product)
| OfApplication (a : DistributorApplication)
| OfDict (d : Doc).

(** ** The environment of the handlers *)

(** The collaborators that [main.py] imports: the builtin [str], bson's
    [ObjectId] and the two store operations of the [database] module.  The
    store operations may raise. *)
Record Env : Type := {
  str : Value -> string;
  ObjectId_is_valid : string -> bool;
  ObjectId : string -> Result Value;
  get_documents : string -> Doc -> nat -> Result (list Doc);
  create_document : string -> Payload -> Result string
}.

(** ** Routes *)

Section Routes.

Variable env : Env.

Definition get_categories : Response (list Doc) := Return CATEGORIES.

(** The body shared by both read handlers for one store document:
    [d["_id"] = str(d.get("_id"))], then, when the document has images,
    [d["images"] = [str(x) for x in d["images"]]]. *)
Definition normalize (d : Doc) : Result Doc :=
  let d := dict_set "_id" (VStr (str env (dict_get "_id" d))) d in
  if dict_mem "images" d then
    imgs <- dict_index "images" d ;;
    xs <- iter imgs ;;
    Ok (dict_set "images" (VList (map (fun x => VStr (str env x)) xs)) d)
  else Ok d.

Definition filter_query (category : option string) (featured : option bool)
  : Doc :=
  let q := [] in
  let q := if truthy category
           then match category with
                | Some c => dict_set "category" (VStr c) q
                | None => q
                end
           else q in
  match featured with
  | Some b => dict_set "featured" (VBool b) q
  | None => q
  end.

(** The [try] block of [list_products]: [Ok (Some docs)] when it returns
    [docs], [Ok None] when control falls out of it, [Raise] when it raises. *)
Definition list_products_db (category : option string)
  (featured : option bool) : Result (option (list Doc)) :=
  docs <- get_documents env "product" (filter_query category featured) 100 ;;
  docs <- mapM normalize docs ;;
  match docs with
  | [] => Ok None
  | _ :: _ => Ok (Some docs)
  end.

(** The part of [list_products] after the [try] statement. *)
Definition list_products_samples (category : option string)
  (featured : option bool) : Result (list Doc) :=
  let prods := sample_products in
  prods <-
    (if truthy category
     then match category with
          | Some c =>
              filterM (fun p => v <- dict_index "category" p ;; Ok (eq_str v c))
                      prods
          | None => Ok prods
          end
     else Ok prods) ;;
  Ok (match featured with
      | Some b => filter (fun p => is_bool (dict_get "featured" p) b) prods
      | None => prods
      end).

Definition list_products (category : option string) (featured : option bool)
  : Response (list Doc) :=
  match list_products_db category featured with
  | Ok (Some docs) => Return docs
  | Ok None | Raise _ => respond (list_products_samples category featured)
  end.

(** The [try] block of [get_product]. *)
Definition get_product_db (product_id : string) : Result (option Doc) :=
  if ObjectId_is_valid env product_id then
    oid <- ObjectId env product_id ;;
    docs <- get_documents env "product" (dict_set "_id" oid []) 1 ;;
    match docs with
    | [] => Ok None
    | d :: _ =>
        d <- normalize d ;;
        Ok (Some d)
    end
  else Ok None.

(** The [for] loop of [get_product] over the samples, and the [raise] that
    follows it. *)
Fixpoint get_product_samples (product_id : string) (prods : list Doc)
  : Response Doc :=
  match prods with
  | [] => HTTPException 404 "Product not found"
  | p :: rest =>
      match dict_index "_id" p with
      | Ok v => if eq_str v product_id then Return p
                else get_product_samples product_id rest
      | Raise e => Uncaught e
      end
  end.

Definition get_product (product_id : string) : Response Doc :=
  match get_product_db product_id with
  | Ok (Some d) => Return d
  | Ok None | Raise _ => get_product_samples product_id sample_products
  end.

Definition create_product (product : Product) : Response Doc :=
  match create_document env "product" (OfProduct product) with
  | Ok inserted_id => Return [ ("id", VStr inserted_id) ]
  | Raise e => HTTPException 500 e
  end.

Definition checkout (data : CheckoutRequest) : Response Doc :=
  match create_document env "order" (OfDict (model_dump data)) with
  | Ok order_id =>
      Return [ ("status", VStr "success"); ("order_id", VStr order_id) ]
  | Raise _ =>
      Return [ ("status", VStr "success"); ("order_id", VStr "demo-order-1234") ]
  end.

Definition distributor_apply (apply : DistributorApplication) : Response Doc :=
  match create_document env "distributorapplication" (OfApplication apply) with
  | Ok app_id =>
      Return [ ("status", VStr "received"); ("application_id", VStr app_id) ]
  | Raise _ =>
      Return [ ("status", VStr "received");
               ("application_id", VStr "demo-application-1234") ]
  end.

End Routes.

(** ** Object identity of the samples *)

(** [sample_products()] evaluates a list display of dict displays, so every
    call allocates five new dicts.  The handlers above never assign into a
    sample, which is why they can work on the value [sample_products]; the
    allocation itself is modelled here, on a heap of dict objects addressed by
    their index. *)
Module Objects.

Definition loc := nat.
Definition heap := list Doc.

Definition deref (h : heap) (l : loc) : option Doc := nth_error h l.

Definition alloc (d : Doc) (h : heap) : loc * heap := (length h, h ++ [d]).

(** Evaluating a list display whose items are the dict displays [ds]. *)
Fixpoint alloc_all (ds : list Doc) (h : heap) : list loc * heap :=
  match ds with
  | [] => ([], h)
  | d :: rest =>
      let (l, h1) := alloc d h in
      let (ls, h2) := alloc_all rest h1 in
      (l :: ls, h2)
  end.

Definition sample_products (h : heap) : list loc * heap :=
  alloc_all sample_products h.

(** [p[k] = v] on the object at [l]. *)
Fixpoint assign (l : loc) (k : string) (v : Value) (h : heap) : heap :=
  match h, l with
  | [], _ => []
  | d :: rest, O => dict_set k v d :: rest
  | d :: rest, S l' => d :: assign l' k v rest
  end.

End Objects.

(** ** Native identifiers *)

Definition is_hex (c : ascii) : bool :=
  let n := nat_of_ascii c in
  (Nat.leb 48 n && Nat.leb n 57) || (Nat.leb 65 n && Nat.leb n 70)
  || (Nat.leb 97 n && Nat.leb n 102).

Fixpoint all_hex (s : string) : bool :=
  match s with
  | EmptyString => true
  | String c rest => is_hex c && all_hex rest
  end.

(** bson's [ObjectId.is_valid] on a string: a native id is written as 24
    hexadecimal digits. *)
Definition bson_is_valid (s : string) : bool :=
  Nat.eqb (String.length s) 24 && all_hex s.

Definition lower (c : ascii) : ascii :=
  let n := nat_of_ascii c in
  if Nat.leb 65 n && Nat.leb n 90 then ascii_of_nat (n + 32) else c.

Fixpoint lowercase (s : string) : string :=
  match s with
  | EmptyString => EmptyString
  | String c rest => String (lower c) (lowercase rest)
  end.

(** bson's [ObjectId(s)]: the id, printed back in lower case, or
    [InvalidId]. *)
Definition bson_ObjectId (s : string) : Result Value :=
  if bson_is_valid s then Ok (VObjectId (lowercase s))
  else Raise (s ++ " is not a valid ObjectId").

(** ** A document store *)

Fixpoint Value_eqb (a b : Value) {struct a} : bool :=
  match a, b with
  | VNone, VNone => true
  | VBool x, VBool y => Bool.eqb x y
  | VInt x, VInt y => Z.eqb x y
  | VFloat x, VFloat y => PrimFloat.eqb x y
  | VStr x, VStr y => String.eqb x y
  | VObjectId x, VObjectId y => String.eqb x y
  | VList xs, VList ys =>
      (fix items (xs ys : list Value) {struct xs} : bool :=
         match xs, ys with
         | [], [] => true
         | x :: xs', y :: ys' => Value_eqb x y && items xs' ys'
         | _, _ => false
         end) xs ys
  | VDict xs, VDict ys =>
      (fix fields (xs ys : list (string * Value)) {struct xs} : bool :=
         match xs, ys with
         | [], [] => true
         | (k, x) :: xs', (k', y) :: ys' =>
             String.eqb k k' && Value_eqb x y && fields xs' ys'
         | _, _ => false
         end) xs ys
  | _, _ => false
  end.

Module Store.

(** Modelled from the spec: the [database] module ([db], [get_documents],
    [create_document]) is not among the sources.  The spec describes it as a
    store with [find(collection, filter, limit)] and
    [insert(collection, document)]: a query returns the documents of the
    collection that match every entry of the filter by equality, at most
    [limit] of them; an insert returns a newly generated identifier; either
    fails as a whole when the store is unavailable. *)
Record Database : Type := {
  collection : string -> list Doc;
  generated_id : string
}.

Inductive State : Type :=
| Unavailable (reason : string)
| Available (db : Database).

Definition matches (query d : Doc) : bool :=
  forallb (fun kv => match dict_find (fst kv) d with
                     | Some v => Value_eqb v (snd kv)
                     | None => false
                     end) query.

Definition get_documents (st : State) (collection_name : string)
  (filter_dict : Doc) (limit : nat) : Result (list Doc) :=
  match st with
  | Unavailable reason => Raise reason
  | Available db =>
      Ok (firstn limit (filter (matches filter_dict)
                               (collection db collection_name)))
  end.

Definition create_document (st : State) (collection_name : string)
  (data : Payload) : Result string :=
  match st with
  | Unavailable reason => Raise reason
  | Available db => Ok (generated_id db)
  end.

(** The handlers' environment over a store in state [st], with bson's
    identifiers; [str] stays a parameter. *)
Definition env (str : Value -> string) (st : State) : Env :=
  Build_Env str bson_is_valid bson_ObjectId
            (get_documents st) (create_document st).

End Store.

(** [str] on the values whose text needs no number formatting. *)
Definition str_plain (v : Value) : string :=
  match v with
  | VNone => "None"
  | VBool true => "True"
  | VBool false => "False"
  | VStr s => s
  | VObjectId hex => hex
  | _ => ""
  end.

(** ** Example stores *)

Definition live_products : list Doc :=
  [ [ ("_id", VObjectId "65a1b2c3d4e5f60718293a4b");
      ("title", VStr "Obsidian Desk Clock");
      ("price", VFloat 350.0%float);
      ("category", VStr "home");
      ("images", VList [ VStr "https://example.com/clock.jpg" ]);
      ("in_stock", VBool true);
      ("featured", VBool false) ] ].

Definition live_database : Store.Database :=
  {| Store.collection :=
       fun c => if String.eqb c "product" then live_products else [];
     Store.generated_id := "65a1b2c3d4e5f60718293a4d" |}.

Definition env_up : Env := Store.env str_plain (Store.Available live_database).
Definition env_down : Env :=
  Store.env str_plain (Store.Unavailable "Database not available").

Definition a_product : Product :=
  {| title := "Onyx Cufflinks"; description := None; price := 240.0%float;
     category := "jewelry"; images := []; in_stock := true; featured := false |}.

Definition an_order : CheckoutRequest :=
  {| items := [ {| product_id := "demo-silk-sofa";
                   item_title := "Silk & Walnut Lounge Sofa";
                   quantity := 1; item_price := 7490.0%float;
                   image := None |} ];
     customer_name := "Ada"; customer_email := "ada@example.com";
     address := "1 Main St"; city := "Paris"; country := "France" |}.

Definition an_application : DistributorApplication :=
  {| name := "Ada"; email := "ada@example.com"; company := None;
     website := None; location := None; message := None |}.

(** ** Conditions on the store *)

(** The product query of [list_products] raises or finds nothing. *)
Definition query_fails_or_empty (env : Env) (category : option string)
  (featured : option bool) : Prop :=
  (exists e, get_documents env "product" (filter_query category featured) 100
             = Raise e)
  \/ get_documents env "product" (filter_query category featured) 100 = Ok [].

(** Every store operation raises. *)
Definition store_unavailable (env : Env) : Prop :=
  (forall c q n, exists e, get_documents env c q n = Raise e)
  /\ (forall c d, exists e, create_document env c d = Raise e).

(** The [try] block of [get_product] returned no document. *)
Definition lookup_yields_nothing (env : Env) (product_id : string) : Prop :=
  get_product_db env product_id = Ok None
  \/ exists e, get_product_db env product_id = Raise e.

(** The single-document lookup of [get_product] misses or fails. *)
Definition lookup_misses_or_fails (env : Env) (product_id : string) : Prop :=
  (exists e, ObjectId env product_id = Raise e)
  \/ exists oid, ObjectId env product_id = Ok oid
       /\ (get_documents env "product" (dict_set "_id" oid []) 1 = Ok []
           \/ exists e, get_documents env "product" (dict_set "_id" oid []) 1
                        = Raise e).

(** ** The listing as the specification words it *)

(** The subset of the static items with [item.category == c] when [c] is
    given and [item.featured == f] when [f] is given. *)
Definition spec_keeps (c : option string) (f : option bool) (item : Doc)
  : bool :=
  match c with
  | Some c => Value_eqb (dict_get "category" item) (VStr c)
  | None => true
  end
  && match f with
     | Some f => Value_eqb (dict_get "featured" item) (VBool f)
     | None => true
     end.

Definition spec_listing (c : option string) (f : option bool) : list Doc :=
  filter (spec_keeps c f) sample_products.

(** The same, with an empty category counted as no category. *)
Definition keeps (c : option string) (f : option bool) (item : Doc) : bool :=
  match c with
  | Some c => String.eqb c "" || Value_eqb (dict_get "category" item) (VStr c)
  | None => true
  end
  && match f with
     | Some f => Value_eqb (dict_get "featured" item) (VBool f)
     | None => true
     end.

Definition listing (c : option string) (f : option bool) : list Doc :=
  filter (keeps c f) sample_products.

(** Exact-match search of the static catalog by identifier. *)
Definition static_lookup (product_id : string) : Response Doc :=
  match find (fun p => Value_eqb (dict_get "_id" p) (VStr product_id))
             sample_products with
  | Some p => Return p
  | None => HTTPException 404 "Product not found"
  end.

(** The acknowledgments of the degraded writes. *)
Definition demo_order : Doc :=
  [ ("status", VStr "success"); ("order_id", VStr "demo-order-1234") ].

Definition demo_application : Doc :=
  [ ("status", VStr "received");
    ("application_id", VStr "demo-application-1234") ].

(** ** The remaining routes *)

Definition read_root : Response Doc :=
  Return [ ("message", VStr "Luxuria backend is running") ].

(** The diagnostics route [test_database].  The handle [db] of the
    [database] module is [None] or an object; of the object, the route reads
    the attribute [name], which may be missing or raise, and calls
    [list_collection_names()], which may raise. *)
Module Diagnostics.

Record Database : Type := {
  name : option (Result string);
  list_collection_names : Result (list string)
}.

(** [str(e)[:50]]. *)
Definition clip (e : string) : string := slice_to 50 e.

Definition initial : Doc :=
  [ ("backend", VStr "✅ Running");
    ("database", VStr "❌ Not Available");
    ("database_url", VNone);
    ("database_name", VNone);
    ("connection_status", VStr "Not Connected");
    ("collections", VList []) ].

(** [db.name if hasattr(db, 'name') else "✅ Connected"]: [hasattr] lets an
    exception other than [AttributeError] through. *)
Definition name_or_default (db : Database) : Result string :=
  match name db with
  | Some r => r
  | None => Ok "✅ Connected"
  end.

(** The inner [try] statement, with its handler. *)
Definition probe (db : Database) (response : Doc) : Doc :=
  match list_collection_names db with
  | Ok collections =>
      let response :=
        dict_set "collections" (VList (map VStr (firstn 10 collections)))
                 response in
      dict_set "database" (VStr "✅ Connected & Working") response
  | Raise e =>
      dict_set "database" (VStr ("⚠️  Connected but Error: " ++ clip e))
               response
  end.

(** The body of the outer [try]: the response as the assignments left it,
    and the exception that ended the body, if one did. *)
Definition body (db : option Database) (response : Doc)
  : Doc * option string :=
  match db with
  | Some db =>
      let response := dict_set "database" (VStr "✅ Available") response in
      let response := dict_set "database_url" (VStr "✅ Configured") response in
      match name_or_default db with
      | Ok n =>
          let response := dict_set "database_name" (VStr n) response in
          let response :=
            dict_set "connection_status" (VStr "Connected") response in
          (probe db response, None)
      | Raise e => (response, Some e)
      end
  | None =>
      (dict_set "database" (VStr "⚠️  Available but not initialized") response,
       None)
  end.

Definition set_or_not (v : option string) : Value :=
  VStr (if truthy v then "✅ Set" else "❌ Not Set").

Definition test_database (db : option Database)
  (getenv : string -> option string) : Doc :=
  let response := initial in
  let response :=
    match body db response with
    | (response, None) => response
    | (response, Some e) =>
        dict_set "database" (VStr ("❌ Error: " ++ clip e)) response
    end in
  let response :=
    dict_set "database_url" (set_or_not (getenv "DATABASE_URL")) response in
  dict_set "database_name" (set_or_not (getenv "DATABASE_NAME")) response.

End Diagnostics.

(** ** Well-formed store documents *)

(** The images of a document, when it has any, can be iterated. *)
Definition images_iterable (d : Doc) : Prop :=
  match dict_find "images" d with
  | Some v => exists xs, iter v = Ok xs
  | None => True
  end.

(** [d'] is [d] with its identifier turned into a string and every other
    field but the images as it was. *)
Definition normalized (env : Env) (d d' : Doc) : Prop :=
  dict_find "_id" d' = Some (VStr (str env (dict_get "_id" d)))
  /\ (forall k, k <> "_id" -> k <> "images" ->
                dict_find k d' = dict_find k d)
  /\ match dict_find "images" d with
     | Some v => exists xs, iter v = Ok xs
                  /\ dict_find "images" d'
                     = Some (VList (map (fun x => VStr (str env x)) xs))
     | None => dict_find "images" d' = None
     end.

Definition broken_products : list Doc :=
  [ [ ("_id", VObjectId "65a1b2c3d4e5f60718293a4b");
      ("title", VStr "Obsidian Desk Clock");
      ("category", VStr "home");
      ("images", VList [ VStr "https://example.com/clock.jpg" ]) ];
    [ ("_id", VObjectId "65a1b2c3d4e5f60718293a4c");
      ("title", VStr "Jade Teapot");
      ("category", VStr "home");
      ("images", VNone) ] ].

Definition broken_database : Store.Database :=
  {| Store.collection :=
       fun c => if String.eqb c "product" then broken_products else [];
     Store.generated_id := "65a1b2c3d4e5f60718293a4d" |}.

Definition env_broken : Env :=
  Store.env str_plain (Store.Available broken_database).

Definition a_handle : Diagnostics.Database :=
  {| Diagnostics.name := Some (Ok "luxuria");
     Diagnostics.list_collection_names :=
       Ok [ "product"; "order"; "distributorapplication"; "c4"; "c5"; "c6";
            "c7"; "c8"; "c9"; "c10"; "c11"; "c12" ] |}.

Definition no_env : string -> option string := fun _ => None.

(** ** Shape of a list of characters *)

Fixpoint all_continuation (s : string) : bool :=
  match s with
  | EmptyString => true
  | String c rest => is_continuation c && all_continuation rest
  end.

(** One byte and continuation bytes after it. *)
Definition is_character (p : string) : bool :=
  match p with
  | String _ rest => all_continuation rest
  | EmptyString => false
  end.

(** A character that does not start with a continuation byte. *)
Definition is_leading (p : string) : bool :=
  is_character p && negb (continues p).

(** A list of characters of which only the first may start with a
    continuation byte. *)
Definition split_form (ps : list string) : Prop :=
  match ps with
  | [] => True
  | p :: rest =>
      is_character p = true /\ Forall (fun q => is_leading q = true) rest
  end.

(** A list of characters that does not start in the middle of one. *)
Definition starts_clean (ps : list string) : Prop :=
  match ps with
  | [] => True
  | q :: _ => continues q = false
  end.

(** * Properties *)

(** ** Operators *)

Lemma eq_str_Value_eqb (v : Value) (s : string) :
  eq_str v s = Value_eqb v (VStr s).
Proof. destruct v; reflexivity. Qed.

Lemma is_bool_Value_eqb (v : Value) (b : bool) :
  is_bool v b = Value_eqb v (VBool b).
Proof. destruct v; reflexivity. Qed.

Lemma truthy_empty : truthy (Some "") = false.
Proof. reflexivity. Qed.

Lemma truthy_nonempty (c : string) : c <> "" -> truthy (Some c) = true.
Proof. destruct c; [congruence | reflexivity]. Qed.

Lemma filterM_total {A : Type} (test : A -> Result bool) (g : A -> bool)
  (l : list A) :
  Forall (fun a => test a = Ok (g a)) l -> filterM test l = Ok (filter g l).
Proof.
  induction 1 as [|a l Ha _ IH]; simpl.
  - reflexivity.
  - rewrite Ha, IH. simpl. destruct (g a); reflexivity.
Qed.

Lemma filter_filter {A : Type} (g1 g2 : A -> bool) (l : list A) :
  filter g2 (filter g1 l) = filter (fun a => g1 a && g2 a) l.
Proof.
  induction l as [|a l IH]; simpl; [reflexivity|].
  destruct (g1 a); simpl; [destruct (g2 a)|]; rewrite IH; reflexivity.
Qed.

Lemma filter_true {A : Type} (l : list A) : filter (fun _ => true) l = l.
Proof. induction l as [|a l IH]; simpl; congruence. Qed.

Lemma mapM_length {A B : Type} (f : A -> Result B) (l : list A) (l' : list B) :
  mapM f l = Ok l' -> length l' = length l.
Proof.
  revert l'. induction l as [|a l IH]; simpl; intros l' H.
  - injection H as <-. reflexivity.
  - destruct (f a) as [b|e]; simpl in H; [|discriminate].
    destruct (mapM f l) as [bs|e]; simpl in H; [|discriminate].
    injection H as <-. simpl. f_equal. apply IH. reflexivity.
Qed.

(** ** The samples *)

Lemma samples_have_category :
  Forall (fun p => exists s, dict_find "category" p = Some (VStr s))
         sample_products.
Proof. repeat constructor; eexists; reflexivity. Qed.

(** The fallback of [list_products] never raises and is the filter [keeps]. *)
Lemma list_products_samples_keeps (c : option string) (f : option bool) :
  list_products_samples c f = Ok (listing c f).
Proof.
  unfold list_products_samples, listing.
  assert (Hcat : forall s,
    filterM (fun p => v <- dict_index "category" p ;; Ok (eq_str v s))
            sample_products
    = Ok (filter (fun p => Value_eqb (dict_get "category" p) (VStr s))
                 sample_products)).
  { intro s. apply filterM_total.
    eapply Forall_impl; [|exact samples_have_category].
    intros p [s' Hp]. unfold dict_index, dict_get. rewrite Hp. simpl.
    reflexivity. }
  destruct c as [c|].
  - destruct (String.eqb_spec c "") as [->|Hne].
    + rewrite truthy_empty. cbn [bind]. f_equal.
      destruct f as [b|].
      * apply filter_ext. intro p. unfold keeps. cbn [String.eqb orb andb].
        apply is_bool_Value_eqb.
      * symmetry. apply filter_true.
    + rewrite (truthy_nonempty c Hne), Hcat. cbn [bind]. f_equal.
      apply String.eqb_neq in Hne.
      destruct f as [b|].
      * rewrite filter_filter. apply filter_ext. intro p. unfold keeps.
        rewrite Hne, is_bool_Value_eqb. reflexivity.
      * apply filter_ext. intro p. unfold keeps.
        rewrite Hne, andb_true_r. reflexivity.
  - cbn [truthy bind]. f_equal. destruct f as [b|].
    + apply filter_ext. intro p. unfold keeps. cbn [andb].
      apply is_bool_Value_eqb.
    + symmetry. apply filter_true.
Qed.

Lemma fallback_when_query_fails_or_empty (env : Env) (c : option string)
  (f : option bool) :
  query_fails_or_empty env c f ->
  list_products env c f = respond (list_products_samples c f).
Proof.
  unfold list_products, list_products_db.
  intros [[e H]|H]; rewrite H; reflexivity.
Qed.

(** ** Listing *)

(** C1, as amended.  When the product query raises or returns no document,
    [list_products] returns exactly the static items whose category equals
    [c], when [c] is given and is not the empty string, and whose featured
    flag equals [f], when [f] is given; an absent filter and an empty
    category impose no constraint. *)
Theorem list_products_fallback_listing (env : Env) (c : option string)
  (f : option bool) :
  query_fails_or_empty env c f ->
  list_products env c f = Return (listing c f).
Proof.
  intro H. rewrite (fallback_when_query_fails_or_empty env c f H).
  rewrite list_products_samples_keeps. reflexivity.
Qed.

Lemma list_products_fallback_listing_witness :
  query_fails_or_empty env_down (Some "home") (Some false)
  /\ list_products env_down (Some "home") (Some false)
     = Return (listing (Some "home") (Some false)).
Proof.
  assert (H : query_fails_or_empty env_down (Some "home") (Some false)).
  { left. eexists. reflexivity. }
  split; [exact H | exact (list_products_fallback_listing _ _ _ H)].
Defined.

(** C1 as the specification states it fails for the empty category: the
    query raises, the category [""] is given, no static item has the category
    [""], and yet the listing is the whole catalog. *)
Lemma list_products_empty_category_counterexample :
  query_fails_or_empty env_down (Some "") None
  /\ spec_listing (Some "") None = []
  /\ list_products env_down (Some "") None = Return sample_products
  /\ list_products env_down (Some "") None
     <> Return (spec_listing (Some "") None).
Proof.
  split; [left; eexists; reflexivity|].
  split; [reflexivity|].
  split; [reflexivity|].
  discriminate.
Qed.

(** C10.  An empty category is an absent category: the query sent to the
    store, the outcome of the store path, the fallback and hence the whole
    listing are the same for [category=""] and for no category, whatever the
    featured filter and the store. *)
Theorem list_products_empty_category_is_absent (env : Env) (f : option bool) :
  filter_query (Some "") f = filter_query None f
  /\ list_products_db env (Some "") f = list_products_db env None f
  /\ list_products_samples (Some "") f = list_products_samples None f
  /\ list_products env (Some "") f = list_products env None f.
Proof. repeat split; reflexivity. Qed.

(** C6.  With no category filter and the store failing or empty, listing
    with [featured=False] returns the static items whose featured flag is
    [False], and only those, so it contains each of them; listing without the
    featured filter returns something else. *)
Theorem list_products_explicit_false (env : Env) :
  query_fails_or_empty env None (Some false) ->
  query_fails_or_empty env None None ->
  exists prods,
    list_products env None (Some false) = Return prods
    /\ (forall p, In p sample_products ->
                  dict_get "featured" p = VBool false -> In p prods)
    /\ (forall p, In p prods -> dict_get "featured" p = VBool false)
    /\ prods <> []
    /\ list_products env None None = Return sample_products
    /\ list_products env None None <> Return prods.
Proof.
  intros Hf Hn.
  rewrite (list_products_fallback_listing _ _ _ Hf).
  rewrite (list_products_fallback_listing _ _ _ Hn).
  exists (listing None (Some false)).
  split; [reflexivity|].
  split.
  { intros p Hin Hp. unfold listing. apply filter_In. split; [exact Hin|].
    unfold keeps. rewrite Hp. reflexivity. }
  split.
  { intros p Hin. unfold listing in Hin. apply filter_In in Hin.
    destruct Hin as [_ Hk]. unfold keeps in Hk. cbn [andb] in Hk.
    destruct (dict_get "featured" p) as [|[|]| | | | | |]; try discriminate.
    reflexivity. }
  split; [discriminate|].
  split; [reflexivity|].
  intro Heq.
  apply (f_equal (fun r => match r with
                           | Return l => @length Doc l
                           | _ => 0
                           end)) in Heq.
  discriminate.
Qed.

Lemma list_products_explicit_false_witness :
  exists prods,
    list_products env_down None (Some false) = Return prods
    /\ (forall p, In p sample_products ->
                  dict_get "featured" p = VBool false -> In p prods)
    /\ (forall p, In p prods -> dict_get "featured" p = VBool false)
    /\ prods <> []
    /\ list_products env_down None None = Return sample_products
    /\ list_products env_down None None <> Return prods.
Proof.
  apply list_products_explicit_false; left; eexists; reflexivity.
Defined.

(** The store honours the limit of a query. *)
Lemma Store_get_documents_limit (st : Store.State) (c : string) (q : Doc)
  (n : nat) (docs : list Doc) :
  Store.get_documents st c q n = Ok docs -> length docs <= n.
Proof.
  destruct st as [reason|db]; simpl; intro H; [discriminate|].
  injection H as <-. apply firstn_le_length.
Qed.

Lemma listing_length (c : option string) (f : option bool) :
  length (listing c f) <= 5.
Proof. unfold listing. apply (filter_length_le (keeps c f) sample_products). Qed.

(** Over any environment whose product query honours the limit of 100, a
    listing is a body of at most 100 records. *)
Lemma list_products_bounded (env : Env) (c : option string) (f : option bool) :
  (forall docs,
     get_documents env "product" (filter_query c f) 100 = Ok docs ->
     length docs <= 100) ->
  exists prods, list_products env c f = Return prods /\ length prods <= 100.
Proof.
  intro Hlimit. unfold list_products, list_products_db.
  destruct (get_documents env "product" (filter_query c f) 100)
    as [docs|e] eqn:Hq; cbn [bind].
  - destruct (mapM (normalize env) docs) as [docs'|e] eqn:Hn; cbn [bind].
    + destruct docs' as [|d docs'].
      * rewrite list_products_samples_keeps. eexists. split; [reflexivity|].
        pose proof (listing_length c f). lia.
      * eexists. split; [reflexivity|].
        rewrite (mapM_length _ _ _ Hn). apply Hlimit. reflexivity.
    + rewrite list_products_samples_keeps. eexists. split; [reflexivity|].
      pose proof (listing_length c f). lia.
  - rewrite list_products_samples_keeps. eexists. split; [reflexivity|].
    pose proof (listing_length c f). lia.
Qed.

(** C8.  Whatever the filters and the state of the store, [list_products]
    returns a body, and the body has at most 100 records: the store path
    returns what a query limited to 100 found, the fallback at most the 5
    static items. *)
Theorem list_products_at_most_100 (str : Value -> string) (st : Store.State)
  (c : option string) (f : option bool) :
  exists prods,
    list_products (Store.env str st) c f = Return prods
    /\ length prods <= 100.
Proof.
  apply list_products_bounded. intros docs H.
  exact (Store_get_documents_limit st _ _ _ _ H).
Qed.

(** ** Detail lookup *)

Lemma Value_eqb_VStr (v : Value) (s : string) :
  Value_eqb v (VStr s) = true <-> v = VStr s.
Proof.
  destruct v; simpl; split; intro H; try discriminate.
  - apply String.eqb_eq in H. congruence.
  - injection H as ->. apply String.eqb_refl.
Qed.

Lemma samples_have_id :
  Forall (fun p => exists v, dict_find "_id" p = Some v) sample_products.
Proof. repeat constructor; eexists; reflexivity. Qed.

Lemma get_product_samples_find (product_id : string) (prods : list Doc) :
  Forall (fun p => exists v, dict_find "_id" p = Some v) prods ->
  get_product_samples product_id prods
  = match find (fun p => Value_eqb (dict_get "_id" p) (VStr product_id))
               prods with
    | Some p => Return p
    | None => HTTPException 404 "Product not found"
    end.
Proof.
  induction 1 as [|p prods [v Hp] _ IH]; cbn [get_product_samples find].
  - reflexivity.
  - unfold dict_index, dict_get. rewrite Hp, eq_str_Value_eqb.
    destruct (Value_eqb v (VStr product_id)); [reflexivity | exact IH].
Qed.

(** The loop of [get_product] over the samples is the exact-match search. *)
Lemma get_product_samples_lookup (product_id : string) :
  get_product_samples product_id sample_products = static_lookup product_id.
Proof. exact (get_product_samples_find product_id _ samples_have_id). Qed.

Lemma static_lookup_hit (product_id : string) (p : Doc) :
  In p sample_products -> dict_get "_id" p = VStr product_id ->
  static_lookup product_id = Return p.
Proof.
  intros Hin Hid.
  destruct Hin as [<-|[<-|[<-|[<-|[<-|[]]]]]];
    vm_compute in Hid; injection Hid as <-; reflexivity.
Qed.

Lemma static_lookup_miss (product_id : string) :
  (forall p, In p sample_products -> dict_get "_id" p <> VStr product_id) ->
  static_lookup product_id = HTTPException 404 "Product not found".
Proof.
  intro Hno. unfold static_lookup.
  destruct (find _ sample_products) as [p|] eqn:Hfind; [|reflexivity].
  apply find_some in Hfind. destruct Hfind as [Hin Heq].
  apply Value_eqb_VStr in Heq. destruct (Hno p Hin Heq).
Qed.

Lemma static_lookup_error (product_id : string) (code : nat) (detail : string) :
  static_lookup product_id = HTTPException code detail ->
  forall p, In p sample_products -> dict_get "_id" p <> VStr product_id.
Proof.
  unfold static_lookup. intros H p Hin Hid.
  destruct (find _ sample_products) as [q|] eqn:Hfind; [discriminate|].
  apply (find_none _ _ Hfind) in Hin.
  apply Value_eqb_VStr in Hid. congruence.
Qed.

Lemma get_product_nothing (env : Env) (product_id : string) :
  lookup_yields_nothing env product_id ->
  get_product env product_id = static_lookup product_id.
Proof.
  unfold get_product. intros [H|[e H]]; rewrite H;
    apply get_product_samples_lookup.
Qed.

Lemma unavailable_yields_nothing (env : Env) (product_id : string) :
  store_unavailable env -> lookup_yields_nothing env product_id.
Proof.
  intros [Hget _]. unfold lookup_yields_nothing, get_product_db.
  destruct (ObjectId_is_valid env product_id); [|left; reflexivity].
  right. destruct (ObjectId env product_id) as [oid|e]; cbn [bind].
  - destruct (Hget "product" (dict_set "_id" oid []) 1) as [e He].
    rewrite He. eexists. reflexivity.
  - eexists. reflexivity.
Qed.

Lemma misses_or_fails_yields_nothing (env : Env) (product_id : string) :
  lookup_misses_or_fails env product_id ->
  lookup_yields_nothing env product_id.
Proof.
  unfold lookup_yields_nothing, get_product_db.
  intros [[e He]|[oid [Hoid [Hq|[e Hq]]]]];
    destruct (ObjectId_is_valid env product_id);
    try (left; reflexivity).
  - right. rewrite He. eexists. reflexivity.
  - left. rewrite Hoid. cbn [bind]. rewrite Hq. reflexivity.
  - right. rewrite Hoid. cbn [bind]. rewrite Hq. eexists. reflexivity.
Qed.

(** C5.  With the store unavailable, [get_product] returns the static item
    that has exactly the requested identifier when there is one; and when the
    store path yields nothing and no static item has the identifier, it
    raises the 404 [HTTPException] with detail "Product not found". *)
Theorem get_product_static_or_not_found (env : Env) (product_id : string) :
  (store_unavailable env ->
   forall p, In p sample_products -> dict_get "_id" p = VStr product_id ->
             get_product env product_id = Return p)
  /\ (lookup_yields_nothing env product_id ->
      (forall p, In p sample_products ->
                 dict_get "_id" p <> VStr product_id) ->
      get_product env product_id = HTTPException 404 "Product not found").
Proof.
  split.
  - intros Hdown p Hin Hid.
    rewrite (get_product_nothing _ _ (unavailable_yields_nothing _ product_id Hdown)).
    exact (static_lookup_hit _ _ Hin Hid).
  - intros Hnothing Hno. rewrite (get_product_nothing _ _ Hnothing).
    exact (static_lookup_miss _ Hno).
Qed.

Lemma env_down_unavailable : store_unavailable env_down.
Proof. split; intros; eexists; reflexivity. Qed.

Lemma get_product_static_or_not_found_witness :
  (exists p, In p sample_products
             /\ dict_get "title" p = VStr "Royal Chrono 42mm"
             /\ get_product env_down "demo-royal-chrono" = Return p)
  /\ get_product env_down "demo-unknown"
     = HTTPException 404 "Product not found".
Proof.
  split.
  - exists (hd [] sample_products).
    split; [left; reflexivity|]. split; [reflexivity|].
    apply (proj1 (get_product_static_or_not_found env_down "demo-royal-chrono")).
    + exact env_down_unavailable.
    + left. reflexivity.
    + reflexivity.
  - apply (proj2 (get_product_static_or_not_found env_down "demo-unknown")).
    + left. reflexivity.
    + intros p Hin Hid.
      destruct Hin as [<-|[<-|[<-|[<-|[<-|[]]]]]]; discriminate Hid.
Defined.

(** C7.  For an identifier with the shape of a native id whose store lookup
    misses or fails, [get_product] is the exact-match search of the static
    catalog: it returns the static item with that identifier if there is one,
    and raises only when there is none. *)
Theorem get_product_falls_through (env : Env) (product_id : string) :
  ObjectId_is_valid env product_id = true ->
  lookup_misses_or_fails env product_id ->
  get_product env product_id = static_lookup product_id
  /\ (forall p, In p sample_products -> dict_get "_id" p = VStr product_id ->
                get_product env product_id = Return p)
  /\ (forall code detail,
        get_product env product_id = HTTPException code detail ->
        code = 404 /\ detail = "Product not found"
        /\ forall p, In p sample_products ->
                     dict_get "_id" p <> VStr product_id).
Proof.
  intros _ Hmiss.
  pose proof (get_product_nothing _ _ (misses_or_fails_yields_nothing _ _ Hmiss)) as Heq.
  split; [exact Heq|]. rewrite Heq. split.
  - intros p Hin Hid. exact (static_lookup_hit _ _ Hin Hid).
  - intros code detail Herr.
    pose proof (static_lookup_error _ _ _ Herr) as Hno.
    rewrite (static_lookup_miss _ Hno) in Herr.
    injection Herr as <- <-. auto.
Qed.

Lemma get_product_falls_through_witness :
  ObjectId_is_valid env_up "65a1b2c3d4e5f60718293a4f" = true
  /\ lookup_misses_or_fails env_up "65a1b2c3d4e5f60718293a4f"
  /\ get_product env_up "65a1b2c3d4e5f60718293a4f"
     = static_lookup "65a1b2c3d4e5f60718293a4f".
Proof.
  assert (Hv : ObjectId_is_valid env_up "65a1b2c3d4e5f60718293a4f" = true)
    by reflexivity.
  assert (Hm : lookup_misses_or_fails env_up "65a1b2c3d4e5f60718293a4f").
  { right. eexists. split; [reflexivity|]. left. reflexivity. }
  split; [exact Hv|]. split; [exact Hm|].
  exact (proj1 (get_product_falls_through _ _ Hv Hm)).
Defined.

(** ** Write endpoints *)

(** C3.  When the insert of a product raises, [create_product] raises the
    500 [HTTPException] whose detail is the message of that exception, and so
    returns no body. *)
Theorem create_product_surfaces_failure (env : Env) (product : Product)
  (e : string) :
  create_document env "product" (OfProduct product) = Raise e ->
  create_product env product = HTTPException 500 e
  /\ forall body, create_product env product <> Return body.
Proof.
  intro H. unfold create_product. rewrite H.
  split; [reflexivity | discriminate].
Qed.

Lemma create_product_surfaces_failure_witness :
  create_document env_down "product" (OfProduct a_product)
  = Raise "Database not available"
  /\ create_product env_down a_product
     = HTTPException 500 "Database not available".
Proof.
  assert (H : create_document env_down "product" (OfProduct a_product)
              = Raise "Database not available") by reflexivity.
  split; [exact H | exact (proj1 (create_product_surfaces_failure _ _ _ H))].
Defined.

(** C4.  [checkout] and [distributor_apply] always return a body.  When the
    insert raises, the body is the fixed demo acknowledgment; when it
    succeeds, the body has the same status and the identifier the store
    generated. *)
Theorem checkout_and_apply_never_fail (env : Env) (data : CheckoutRequest)
  (apply : DistributorApplication) :
  (exists body, checkout env data = Return body)
  /\ (exists body, distributor_apply env apply = Return body)
  /\ (forall e,
        create_document env "order" (OfDict (model_dump data)) = Raise e ->
        checkout env data = Return demo_order)
  /\ (forall e,
        create_document env "distributorapplication" (OfApplication apply)
        = Raise e ->
        distributor_apply env apply = Return demo_application)
  /\ (forall order_id,
        create_document env "order" (OfDict (model_dump data)) = Ok order_id ->
        checkout env data
        = Return [ ("status", VStr "success"); ("order_id", VStr order_id) ])
  /\ (forall app_id,
        create_document env "distributorapplication" (OfApplication apply)
        = Ok app_id ->
        distributor_apply env apply
        = Return [ ("status", VStr "received");
                   ("application_id", VStr app_id) ]).
Proof.
  unfold checkout, distributor_apply.
  destruct (create_document env "order" (OfDict (model_dump data)));
    destruct (create_document env "distributorapplication"
                              (OfApplication apply));
    repeat split; try (eexists; reflexivity); intros; congruence.
Qed.

Lemma checkout_and_apply_never_fail_witness :
  checkout env_down an_order = Return demo_order
  /\ distributor_apply env_down an_application = Return demo_application
  /\ checkout env_up an_order
     = Return [ ("status", VStr "success");
                ("order_id", VStr "65a1b2c3d4e5f60718293a4d") ]
  /\ distributor_apply env_up an_application
     = Return [ ("status", VStr "received");
                ("application_id", VStr "65a1b2c3d4e5f60718293a4d") ].
Proof.
  pose proof (checkout_and_apply_never_fail env_down an_order an_application)
    as (_ & _ & Hc & Ha & _ & _).
  pose proof (checkout_and_apply_never_fail env_up an_order an_application)
    as (_ & _ & _ & _ & Hc' & Ha').
  split; [exact (Hc _ eq_refl)|]. split; [exact (Ha _ eq_refl)|].
  split; [exact (Hc' _ eq_refl) | exact (Ha' _ eq_refl)].
Defined.

(** C2, as amended.  With the store unavailable, [checkout] and
    [distributor_apply] return their demo acknowledgments as a success, and
    [create_product] raises instead the 500 [HTTPException] whose detail is
    the message of the exception that the insert raised. *)
Theorem writes_when_store_unavailable (env : Env) :
  store_unavailable env ->
  (forall data, checkout env data = Return demo_order)
  /\ (forall apply, distributor_apply env apply = Return demo_application)
  /\ (forall product, exists e,
        create_document env "product" (OfProduct product) = Raise e
        /\ create_product env product = HTTPException 500 e).
Proof.
  intros [_ Hdown]. repeat split.
  - intro data. unfold checkout.
    destruct (Hdown "order" (OfDict (model_dump data))) as [e ->].
    reflexivity.
  - intro apply. unfold distributor_apply.
    destruct (Hdown "distributorapplication" (OfApplication apply)) as [e ->].
    reflexivity.
  - intro product. unfold create_product.
    destruct (Hdown "product" (OfProduct product)) as [e He].
    exists e. rewrite He. split; reflexivity.
Qed.

Lemma writes_when_store_unavailable_witness :
  store_unavailable env_down
  /\ checkout env_down an_order = Return demo_order
  /\ distributor_apply env_down an_application = Return demo_application
  /\ exists e,
       create_document env_down "product" (OfProduct a_product) = Raise e
       /\ create_product env_down a_product = HTTPException 500 e.
Proof.
  pose proof (writes_when_store_unavailable _ env_down_unavailable)
    as (Hc & Ha & Hp).
  split; [exact env_down_unavailable|].
  split; [exact (Hc an_order)|].
  split; [exact (Ha an_application) | exact (Hp a_product)].
Defined.

(** C2 as the specification states it fails for product creation: the store
    is unavailable and [create_product] returns no acknowledgment, it raises. *)
Lemma create_product_unavailable_counterexample :
  store_unavailable env_down
  /\ create_product env_down a_product
     = HTTPException 500 "Database not available"
  /\ ~ exists body, create_product env_down a_product = Return body.
Proof.
  split; [exact env_down_unavailable|].
  split; [reflexivity|].
  intros [body H]. discriminate H.
Qed.

(** ** The static catalog *)

Lemma alloc_all_spec (ds : list Doc) (h : Objects.heap) :
  Objects.alloc_all ds h = (seq (length h) (length ds), h ++ ds).
Proof.
  revert h. induction ds as [|d ds IH]; intro h; simpl.
  - rewrite app_nil_r. reflexivity.
  - rewrite IH, length_app, <- app_assoc. simpl.
    replace (length h + 1) with (S (length h)) by lia. reflexivity.
Qed.

Lemma deref_new (ds : list Doc) (h : Objects.heap) :
  map (Objects.deref (h ++ ds)) (seq (length h) (length ds)) = map Some ds.
Proof.
  revert h. induction ds as [|d ds IH]; intro h; simpl; [reflexivity|].
  f_equal.
  - unfold Objects.deref. rewrite nth_error_app2, Nat.sub_diag by lia.
    reflexivity.
  - specialize (IH (h ++ [d])).
    rewrite <- app_assoc, length_app in IH. simpl in IH.
    replace (length h + 1) with (S (length h)) in IH by lia. exact IH.
Qed.

Lemma assign_length (l : Objects.loc) (k : string) (v : Value)
  (h : Objects.heap) :
  length (Objects.assign l k v h) = length h.
Proof.
  revert l. induction h as [|d h IH]; intros [|l]; simpl; auto.
Qed.

(** What one call of [sample_products()] does on any heap: five new objects,
    none of them known before, holding the five samples in order, and nothing
    that existed is touched. *)
Lemma sample_products_call (h : Objects.heap) :
  let (ls, h') := Objects.sample_products h in
  ls = seq (length h) 5
  /\ map (Objects.deref h') ls = map Some sample_products
  /\ (forall l d, Objects.deref h l = Some d -> Objects.deref h' l = Some d).
Proof.
  unfold Objects.sample_products. rewrite alloc_all_spec.
  split; [reflexivity|]. split; [apply deref_new|].
  intros l d Hl. unfold Objects.deref in *.
  rewrite nth_error_app1; [exact Hl|].
  apply nth_error_Some. congruence.
Qed.

(** C9.  Every call of [sample_products()], on any heap, yields five newly
    allocated objects holding the same five items in the same order, leaving
    existing objects alone; a later call is unaffected by an assignment into
    an object of an earlier one and shares no object with it.  The five items
    have five different categories, a price of at least 0 and an identifier
    that starts with "demo-" and is not a valid native id. *)
Theorem sample_products_stable (h : Objects.heap) (l : Objects.loc)
  (k : string) (v : Value) :
  (let (ls1, h1) := Objects.sample_products h in
   let (ls2, h2) := Objects.sample_products (Objects.assign l k v h1) in
   map (Objects.deref h1) ls1 = map Some sample_products
   /\ map (Objects.deref h2) ls2 = map Some sample_products
   /\ NoDup ls1
   /\ (forall x, In x ls1 -> Objects.deref h x = None)
   /\ (forall x d, Objects.deref h x = Some d -> Objects.deref h1 x = Some d)
   /\ (forall x, In x ls1 -> ~ In x ls2))
  /\ length sample_products = 5
  /\ NoDup (map (dict_get "category") sample_products)
  /\ Forall (fun p => exists x, dict_get "price" p = VFloat x
                                /\ PrimFloat.leb 0 x = true) sample_products
  /\ Forall (fun p => exists id, dict_get "_id" p = VStr id
                                 /\ String.prefix "demo-" id = true
                                 /\ bson_is_valid id = false) sample_products.
Proof.
  split.
  { pose proof (sample_products_call h) as H1.
    destruct (Objects.sample_products h) as [ls1 h1] eqn:E1.
    destruct H1 as (Hls1 & Hd1 & Hold).
    pose proof (sample_products_call (Objects.assign l k v h1)) as H2.
    destruct (Objects.sample_products (Objects.assign l k v h1)) as [ls2 h2].
    destruct H2 as (Hls2 & Hd2 & _).
    assert (Hlen : length h1 = length h + 5).
    { unfold Objects.sample_products in E1. rewrite alloc_all_spec in E1.
      injection E1 as _ <-. rewrite length_app. reflexivity. }
    split; [exact Hd1|]. split; [exact Hd2|].
    split; [rewrite Hls1; apply seq_NoDup|].
    split.
    { intros x Hx. rewrite Hls1 in Hx. apply in_seq in Hx.
      apply nth_error_None. lia. }
    split; [exact Hold|].
    intros x Hx1 Hx2. rewrite Hls1 in Hx1. rewrite Hls2 in Hx2.
    rewrite assign_length, Hlen in Hx2.
    apply in_seq in Hx1. apply in_seq in Hx2. lia. }
  split; [reflexivity|].
  split.
  { vm_compute. repeat constructor; simpl; intuition discriminate. }
  split.
  { repeat constructor; eexists; split; reflexivity. }
  repeat constructor; eexists; repeat split; reflexivity.
Qed.


(** ** Dicts *)

Lemma dict_find_set_same (k : string) (v : Value) (d : Doc) :
  dict_find k (dict_set k v d) = Some v.
Proof.
  induction d as [|[k' v'] d IH]; simpl.
  - rewrite String.eqb_refl. reflexivity.
  - destruct (String.eqb k' k) eqn:E; simpl.
    + rewrite String.eqb_refl. reflexivity.
    + rewrite E. exact IH.
Qed.

Lemma dict_find_set_other (k k' : string) (v : Value) (d : Doc) :
  k <> k' -> dict_find k' (dict_set k v d) = dict_find k' d.
Proof.
  intro Hne. apply String.eqb_neq in Hne.
  induction d as [|[k0 v0] d IH]; simpl.
  - rewrite Hne. reflexivity.
  - destruct (String.eqb k0 k) eqn:E; simpl.
    + apply String.eqb_eq in E. subst k0. rewrite Hne. reflexivity.
    + rewrite IH. reflexivity.
Qed.

Lemma dict_set_unchanged (k : string) (v : Value) (d : Doc) :
  dict_find k d = Some v -> dict_set k v d = d.
Proof.
  induction d as [|[k' v'] d IH]; simpl; [discriminate|].
  destruct (String.eqb k' k) eqn:E; intro H.
  - apply String.eqb_eq in E. congruence.
  - rewrite (IH H). reflexivity.
Qed.

(** ** Sequencing *)

Lemma mapM_Forall2 {A B : Type} (f : A -> Result B) (l : list A)
  (l' : list B) :
  mapM f l = Ok l' -> Forall2 (fun a b => f a = Ok b) l l'.
Proof.
  revert l'. induction l as [|a l IH]; simpl; intros l' H.
  - injection H as <-. constructor.
  - destruct (f a) as [b|e] eqn:Ha; simpl in H; [|discriminate].
    destruct (mapM f l) as [bs|e]; simpl in H; [|discriminate].
    injection H as <-. constructor; [exact Ha | apply IH; reflexivity].
Qed.

Lemma mapM_total {A B : Type} (f : A -> Result B) (l : list A) :
  Forall (fun a => exists b, f a = Ok b) l -> exists l', mapM f l = Ok l'.
Proof.
  induction 1 as [|a l [b Hb] _ [l' IH]]; simpl.
  - eexists. reflexivity.
  - rewrite Hb, IH. simpl. eexists. reflexivity.
Qed.

Lemma mapM_raises {A B : Type} (f : A -> Result B) (l : list A) (a : A)
  (e : string) :
  In a l -> f a = Raise e -> exists e', mapM f l = Raise e'.
Proof.
  induction l as [|a0 l IH]; simpl; [intros []|].
  intros [->|Hin] Ha.
  - rewrite Ha. eexists. reflexivity.
  - destruct (f a0) as [b|e0]; simpl; [|eexists; reflexivity].
    destruct (IH Hin Ha) as [e' ->]. eexists. reflexivity.
Qed.

(** ** Normalisation of a store document *)

Lemma normalize_iterable (env : Env) (d : Doc) :
  images_iterable d ->
  exists d', normalize env d = Ok d' /\ normalized env d d'.
Proof.
  unfold images_iterable, normalize, normalized, dict_mem, dict_index.
  rewrite (dict_find_set_other "_id" "images") by discriminate.
  destruct (dict_find "images" d) as [v|] eqn:Himg.
  - intros [xs Hxs]. cbn [bind]. rewrite Hxs. cbn [bind].
    eexists. split; [reflexivity|].
    split.
    { rewrite (dict_find_set_other "images" "_id") by discriminate.
      apply dict_find_set_same. }
    split.
    { intros k Hid Him.
      rewrite (dict_find_set_other "images" k) by congruence.
      apply dict_find_set_other. congruence. }
    exists xs. split; [reflexivity | apply dict_find_set_same].
  - intros _. eexists. split; [reflexivity|].
    split; [apply dict_find_set_same|].
    split.
    { intros k Hid Him. apply dict_find_set_other. congruence. }
    rewrite (dict_find_set_other "_id" "images") by discriminate.
    exact Himg.
Qed.

Lemma normalize_not_iterable (env : Env) (d : Doc) (v : Value) (e : string) :
  dict_find "images" d = Some v -> iter v = Raise e ->
  normalize env d = Raise e.
Proof.
  intros Himg Hv. unfold normalize, dict_mem, dict_index.
  rewrite (dict_find_set_other "_id" "images") by discriminate.
  rewrite Himg. cbn [bind]. rewrite Hv. reflexivity.
Qed.

Lemma normalize_normalized (env : Env) (d d' : Doc) :
  normalize env d = Ok d' -> normalized env d d'.
Proof.
  intro H.
  assert (Hit : images_iterable d).
  { unfold images_iterable.
    destruct (dict_find "images" d) as [v|] eqn:Himg; [|exact I].
    destruct (iter v) as [xs|e] eqn:Hv; [exists xs; reflexivity|].
    rewrite (normalize_not_iterable env d v e Himg Hv) in H. discriminate. }
  destruct (normalize_iterable env d Hit) as [d'' [Hn Hd]].
  congruence.
Qed.

(** ** Listing: the store path *)

(** X1.  [list_products] never raises: whatever the store does and whatever
    the filters are, it returns a body. *)
Theorem list_products_always_returns (env : Env) (c : option string)
  (f : option bool) :
  exists prods, list_products env c f = Return prods.
Proof.
  unfold list_products.
  destruct (list_products_db env c f) as [[docs|]|e];
    try rewrite list_products_samples_keeps; eexists; reflexivity.
Qed.

(** X2.  When the product query returns documents, at least one, and the
    images of each can be iterated, [list_products] returns one record per
    document, in the store's order: the document with its [_id] replaced by
    its string, its images by their strings, and every other field as stored.
    No static item is mixed in and no filter is applied locally. *)
Theorem list_products_store_path (env : Env) (c : option string)
  (f : option bool) (docs : list Doc) :
  get_documents env "product" (filter_query c f) 100 = Ok docs ->
  docs <> [] ->
  Forall images_iterable docs ->
  exists prods,
    list_products env c f = Return prods
    /\ Forall2 (normalized env) docs prods.
Proof.
  intros Hq Hne Hit.
  assert (Hall : Forall (fun d => exists d', normalize env d = Ok d') docs).
  { eapply Forall_impl; [|exact Hit]. intros d Hd.
    destruct (normalize_iterable env d Hd) as [d' [Hn _]]. exists d'.
    exact Hn. }
  destruct (mapM_total _ _ Hall) as [prods Hm].
  exists prods. split.
  - unfold list_products, list_products_db. rewrite Hq. cbn [bind].
    rewrite Hm. cbn [bind].
    destruct prods as [|p prods]; [|reflexivity].
    apply mapM_length in Hm. destruct docs; [congruence | discriminate].
  - apply mapM_Forall2 in Hm.
    eapply Forall2_impl; [|exact Hm].
    intros d d' Hn. exact (normalize_normalized env d d' Hn).
Qed.

Lemma list_products_store_path_witness :
  exists prods,
    list_products env_up (Some "home") (Some false) = Return prods
    /\ Forall2 (normalized env_up) live_products prods.
Proof.
  apply (list_products_store_path env_up (Some "home") (Some false)
                                  live_products).
  - reflexivity.
  - discriminate.
  - repeat constructor. exists [VStr "https://example.com/clock.jpg"].
    reflexivity.
Defined.

(** X3.  One malformed document spoils the store path: when some document
    the query returned has images that cannot be iterated, [list_products]
    drops all the store's documents and returns the filtered static items. *)
Theorem list_products_malformed_document (env : Env) (c : option string)
  (f : option bool) (docs : list Doc) (d : Doc) (v : Value) (e : string) :
  get_documents env "product" (filter_query c f) 100 = Ok docs ->
  In d docs ->
  dict_find "images" d = Some v ->
  iter v = Raise e ->
  list_products env c f = Return (listing c f).
Proof.
  intros Hq Hin Himg Hv.
  destruct (mapM_raises (normalize env) docs d e Hin
              (normalize_not_iterable env d v e Himg Hv)) as [e' Hm].
  unfold list_products, list_products_db. rewrite Hq. cbn [bind].
  rewrite Hm. cbn [bind]. rewrite list_products_samples_keeps. reflexivity.
Qed.

Lemma list_products_malformed_document_witness :
  list_products env_broken (Some "home") None
  = Return (listing (Some "home") None).
Proof.
  apply (list_products_malformed_document env_broken (Some "home") None
           broken_products (nth 1 broken_products []) VNone
           "object is not iterable").
  - reflexivity.
  - right. left. reflexivity.
  - reflexivity.
  - reflexivity.
Defined.

(** ** Detail lookup: the store path *)

Lemma static_lookup_outcome (product_id : string) :
  (exists p, In p sample_products /\ static_lookup product_id = Return p)
  \/ static_lookup product_id = HTTPException 404 "Product not found".
Proof.
  unfold static_lookup.
  destruct (find _ sample_products) as [p|] eqn:Hfind; [left|right; reflexivity].
  exists p. split; [|reflexivity]. exact (proj1 (find_some _ _ Hfind)).
Qed.

(** X4.  [get_product] has two outcomes only, whatever the store does: it
    returns a document, or it raises the 404 [HTTPException] with detail
    "Product not found".  No other status and no uncaught exception leaves
    it. *)
Theorem get_product_returns_or_404 (env : Env) (product_id : string) :
  (exists d, get_product env product_id = Return d)
  \/ get_product env product_id = HTTPException 404 "Product not found".
Proof.
  unfold get_product.
  destruct (get_product_db env product_id) as [[d|]|e];
    try (left; exists d; reflexivity);
    rewrite get_product_samples_lookup;
    destruct (static_lookup_outcome product_id) as [[p [_ ->]]| ->];
    try (left; exists p; reflexivity); right; reflexivity.
Qed.

(** X5.  An identifier that does not have the shape of a native id is
    resolved from the static catalog alone: the store is not consulted, so
    the answer is the same whatever the store holds or raises. *)
Theorem get_product_not_native (env : Env) (product_id : string) :
  ObjectId_is_valid env product_id = false ->
  get_product_db env product_id = Ok None
  /\ get_product env product_id = static_lookup product_id.
Proof.
  intro Hv.
  assert (H : get_product_db env product_id = Ok None).
  { unfold get_product_db. rewrite Hv. reflexivity. }
  split; [exact H|].
  unfold get_product. rewrite H. apply get_product_samples_lookup.
Qed.

Lemma get_product_not_native_witness :
  get_product_db env_up "demo-silk-sofa" = Ok None
  /\ get_product env_up "demo-silk-sofa" = static_lookup "demo-silk-sofa".
Proof.
  apply (get_product_not_native env_up "demo-silk-sofa"). reflexivity.
Defined.

Lemma sample_ids_short :
  Forall (fun p => exists id, dict_get "_id" p = VStr id
                              /\ String.length id < 24) sample_products.
Proof. repeat constructor; eexists; split; try reflexivity; simpl; lia. Qed.

(** X6.  The static items stay reachable by identifier beside a live store:
    if native ids are 24 characters long, then for every static item and
    every store, [get_product] on the item's [_id] returns that item. *)
Theorem get_product_static_item (env : Env) (p : Doc) :
  (forall s, ObjectId_is_valid env s = true -> String.length s = 24) ->
  In p sample_products ->
  exists id, dict_get "_id" p = VStr id /\ get_product env id = Return p.
Proof.
  intros Hshape Hin.
  pose proof (proj1 (Forall_forall _ _) sample_ids_short p Hin)
    as [id [Hid Hlen]].
  exists id. split; [exact Hid|].
  assert (Hv : ObjectId_is_valid env id = false).
  { destruct (ObjectId_is_valid env id) eqn:E; [|reflexivity].
    apply Hshape in E. lia. }
  unfold get_product, get_product_db. rewrite Hv.
  rewrite get_product_samples_lookup.
  exact (static_lookup_hit id p Hin Hid).
Qed.

Lemma bson_is_valid_length (s : string) :
  bson_is_valid s = true -> String.length s = 24.
Proof.
  unfold bson_is_valid. intro H. apply andb_true_iff in H.
  apply Nat.eqb_eq. exact (proj1 H).
Qed.

Lemma get_product_static_item_witness :
  exists id,
    dict_get "_id" (hd [] sample_products) = VStr id
    /\ get_product env_up id = Return (hd [] sample_products).
Proof.
  apply (get_product_static_item env_up (hd [] sample_products)).
  - exact bson_is_valid_length.
  - left. reflexivity.
Defined.

(** X7.  On a hit, [get_product] answers from the first document the store
    returned and ignores the rest: when its images can be iterated, the
    answer is that document with its [_id] replaced by its string, its images
    by their strings, and every other field as stored. *)
Theorem get_product_hit (env : Env) (product_id : string) (oid : Value)
  (d : Doc) (rest : list Doc) :
  ObjectId_is_valid env product_id = true ->
  ObjectId env product_id = Ok oid ->
  get_documents env "product" (dict_set "_id" oid []) 1 = Ok (d :: rest) ->
  images_iterable d ->
  exists d', get_product env product_id = Return d' /\ normalized env d d'.
Proof.
  intros Hv Hoid Hq Hit.
  destruct (normalize_iterable env d Hit) as [d' [Hn Hd]].
  exists d'. split; [|exact Hd].
  unfold get_product, get_product_db. rewrite Hv, Hoid. cbn [bind].
  rewrite Hq. cbn [bind]. rewrite Hn. reflexivity.
Qed.

Lemma get_product_hit_witness :
  exists d',
    get_product env_up "65A1B2C3D4E5F60718293A4B" = Return d'
    /\ normalized env_up (hd [] live_products) d'.
Proof.
  apply (get_product_hit env_up "65A1B2C3D4E5F60718293A4B"
           (VObjectId "65a1b2c3d4e5f60718293a4b") (hd [] live_products) []).
  - reflexivity.
  - reflexivity.
  - reflexivity.
  - exists [VStr "https://example.com/clock.jpg"]. reflexivity.
Defined.

(** X8.  A stored document whose images cannot be iterated is not served:
    on such a hit [get_product] falls back to the exact-match search of the
    static catalog, so the caller gets a static item or the 404, not a
    server error. *)
Theorem get_product_malformed_hit (env : Env) (product_id : string)
  (oid : Value) (d : Doc) (rest : list Doc) (v : Value) (e : string) :
  ObjectId_is_valid env product_id = true ->
  ObjectId env product_id = Ok oid ->
  get_documents env "product" (dict_set "_id" oid []) 1 = Ok (d :: rest) ->
  dict_find "images" d = Some v ->
  iter v = Raise e ->
  get_product env product_id = static_lookup product_id.
Proof.
  intros Hv Hoid Hq Himg Hiter.
  unfold get_product, get_product_db. rewrite Hv, Hoid. cbn [bind].
  rewrite Hq. cbn [bind].
  rewrite (normalize_not_iterable env d v e Himg Hiter). cbn [bind].
  apply get_product_samples_lookup.
Qed.

Lemma get_product_malformed_hit_witness :
  get_product env_broken "65a1b2c3d4e5f60718293a4c"
  = static_lookup "65a1b2c3d4e5f60718293a4c".
Proof.
  apply (get_product_malformed_hit env_broken "65a1b2c3d4e5f60718293a4c"
           (VObjectId "65a1b2c3d4e5f60718293a4c") (nth 1 broken_products [])
           [] VNone "object is not iterable"); reflexivity.
Defined.

(** X9.  Listing and detail agree on the fallback: with the store
    unavailable, every record that [list_products] returns, under any
    filters, has a string [_id] on which [get_product] returns that very
    record. *)
Theorem list_then_get_product (env : Env) (c : option string)
  (f : option bool) (prods : list Doc) (p : Doc) :
  store_unavailable env ->
  list_products env c f = Return prods ->
  In p prods ->
  exists id, dict_get "_id" p = VStr id /\ get_product env id = Return p.
Proof.
  intros Hdown Hlist Hin.
  assert (Hq : query_fails_or_empty env c f).
  { left. exact (proj1 Hdown "product" (filter_query c f) 100). }
  rewrite (fallback_when_query_fails_or_empty env c f Hq) in Hlist.
  rewrite list_products_samples_keeps in Hlist.
  injection Hlist as <-.
  unfold listing in Hin. apply filter_In in Hin. destruct Hin as [Hin _].
  pose proof (proj1 (Forall_forall _ _) sample_ids_short p Hin)
    as [id [Hid _]].
  exists id. split; [exact Hid|].
  rewrite (get_product_nothing env id (unavailable_yields_nothing env id Hdown)).
  exact (static_lookup_hit id p Hin Hid).
Qed.

Lemma list_then_get_product_witness :
  exists id,
    dict_get "_id" (nth 3 sample_products []) = VStr id
    /\ get_product env_down id = Return (nth 3 sample_products []).
Proof.
  apply (list_then_get_product env_down (Some "home") None
           [nth 3 sample_products []] (nth 3 sample_products [])).
  - exact env_down_unavailable.
  - reflexivity.
  - left. reflexivity.
Defined.

(** ** The fallback filter *)

Lemma keeps_matches_query (c : option string) (f : option bool) (p : Doc) :
  keeps c f p = Store.matches (filter_query c f) p.
Proof.
  unfold keeps, Store.matches, filter_query, dict_get.
  destruct c as [[|a c]|]; destruct f as [b|];
    cbn [truthy dict_set String.eqb Ascii.eqb Bool.eqb forallb fst snd orb
         andb];
    repeat match goal with
           | |- context [dict_find ?k p] => destruct (dict_find k p)
           end;
    rewrite ?andb_true_r; reflexivity.
Qed.

(** X10.  The fallback applies to the static items the filter it sent to the
    store: it keeps exactly the items that have, for every key of the query,
    a value equal to the query's. *)
Theorem list_products_samples_match_query (c : option string)
  (f : option bool) :
  list_products_samples c f
  = Ok (filter (Store.matches (filter_query c f)) sample_products).
Proof.
  rewrite list_products_samples_keeps. unfold listing. f_equal.
  apply filter_ext. intro p. apply keeps_matches_query.
Qed.

Lemma samples_featured_bool :
  Forall (fun p => exists b, dict_get "featured" p = VBool b) sample_products.
Proof. repeat constructor; eexists; reflexivity. Qed.

Lemma keeps_featured (c : option string) (b : bool) (p : Doc) :
  keeps c (Some b) p
  = keeps c None p && Value_eqb (dict_get "featured" p) (VBool b).
Proof. unfold keeps. rewrite andb_true_r. reflexivity. Qed.

Lemma filter_split_length {A : Type} (g h1 h2 : A -> bool) (l : list A) :
  Forall (fun a => h1 a = negb (h2 a)) l ->
  length (filter (fun a => g a && h1 a) l)
  + length (filter (fun a => g a && h2 a) l)
  = length (filter g l).
Proof.
  induction 1 as [|a l Ha _ IH]; simpl; [reflexivity|].
  rewrite Ha. destruct (g a), (h2 a); simpl; lia.
Qed.

(** X11.  On the fallback, the featured filter splits a listing in two: for
    every category filter, each item of the listing without featured filter
    is in the listing for [featured=True] or in the one for [featured=False],
    never in both, and the two have no other items. *)
Theorem featured_listings_partition (c : option string) :
  exists yes no every,
    list_products_samples c (Some true) = Ok yes
    /\ list_products_samples c (Some false) = Ok no
    /\ list_products_samples c None = Ok every
    /\ (forall p, In p every <-> In p yes \/ In p no)
    /\ (forall p, In p yes -> In p no -> False)
    /\ length yes + length no = length every.
Proof.
  exists (listing c (Some true)), (listing c (Some false)), (listing c None).
  repeat rewrite list_products_samples_keeps.
  split; [reflexivity|]. split; [reflexivity|]. split; [reflexivity|].
  unfold listing. split; [|split].
  - intro p. rewrite !filter_In, !keeps_featured. split.
    + intros [Hin Hk].
      destruct (proj1 (Forall_forall _ _) samples_featured_bool p Hin)
        as [[|] Hb]; rewrite Hk, Hb; [left|right]; split; auto.
    + intros [[Hin Hk]|[Hin Hk]]; apply andb_true_iff in Hk; tauto.
  - intros p Hy Hn. rewrite filter_In, keeps_featured in Hy, Hn.
    destruct Hy as [Hin Hy]. destruct Hn as [_ Hn].
    apply andb_true_iff in Hy. apply andb_true_iff in Hn.
    destruct (proj1 (Forall_forall _ _) samples_featured_bool p Hin)
      as [[|] Hb]; rewrite Hb in Hy, Hn; simpl in Hy, Hn;
      intuition discriminate.
  - rewrite (filter_ext _ _ (keeps_featured c true)).
    rewrite (filter_ext _ _ (keeps_featured c false)).
    apply filter_split_length.
    eapply Forall_impl; [|exact samples_featured_bool].
    intros p [[|] ->]; reflexivity.
Qed.

(** X12.  The categories and the static items agree: on the fallback,
    listing by the identifier of one of the [CATEGORIES] returns exactly one
    item, of that category, and listing by any other non-empty category
    returns the empty list. *)
Theorem list_products_samples_by_category (s : string) :
  s <> "" ->
  (In (VStr s) (map (dict_get "id") CATEGORIES) ->
   exists p, list_products_samples (Some s) None = Ok [p]
             /\ dict_get "category" p = VStr s)
  /\ (~ In (VStr s) (map (dict_get "id") CATEGORIES) ->
      list_products_samples (Some s) None = Ok []).
Proof.
  intro Hne. split.
  - intro Hin. vm_compute in Hin.
    destruct Hin as [H|[H|[H|[H|[H|[]]]]]]; injection H as <-;
      eexists; split; reflexivity.
  - intro Hout. rewrite list_products_samples_keeps. f_equal.
    destruct (listing (Some s) None) as [|p l] eqn:E; [reflexivity|].
    exfalso. apply Hout.
    assert (Hp : In p (listing (Some s) None)) by (rewrite E; left; reflexivity).
    unfold listing in Hp. apply filter_In in Hp. destruct Hp as [Hin Hk].
    unfold keeps in Hk. rewrite andb_true_r in Hk.
    apply String.eqb_neq in Hne. rewrite Hne in Hk. cbn [orb] in Hk.
    apply Value_eqb_VStr in Hk.
    destruct Hin as [<-|[<-|[<-|[<-|[<-|[]]]]]];
      vm_compute in Hk; injection Hk as <-; vm_compute; tauto.
Qed.

Lemma list_products_samples_by_category_witness :
  (exists p, list_products_samples (Some "home") None = Ok [p]
             /\ dict_get "category" p = VStr "home")
  /\ list_products_samples (Some "garden") None = Ok [].
Proof.
  split.
  - apply (proj1 (list_products_samples_by_category "home"
                    ltac:(discriminate))).
    right. right. right. left. reflexivity.
  - apply (proj2 (list_products_samples_by_category "garden"
                    ltac:(discriminate))).
    intro H. vm_compute in H. intuition discriminate.
Defined.

(** X13.  Normalising is idempotent: where [str] of a string is the string,
    a document that [normalize] produced is left as it is by another pass. *)
Theorem normalize_idempotent (env : Env) (d d' : Doc) :
  (forall s, str env (VStr s) = s) ->
  normalize env d = Ok d' ->
  normalize env d' = Ok d'.
Proof.
  intros Hstr Hn.
  destruct (normalize_normalized env d d' Hn) as (Hid & _ & Himg).
  unfold normalize, dict_get, dict_mem, dict_index.
  rewrite Hid, Hstr, (dict_set_unchanged "_id" _ d' Hid).
  destruct (dict_find "images" d) as [v|].
  - destruct Himg as [xs [_ Himg]]. rewrite Himg. cbn [bind iter].
    rewrite map_map.
    rewrite (map_ext (fun x => VStr (str env (VStr (str env x))))
                     (fun x => VStr (str env x)))
      by (intro x; rewrite Hstr; reflexivity).
    rewrite (dict_set_unchanged "images" _ d' Himg). reflexivity.
  - rewrite Himg. reflexivity.
Qed.

Lemma normalize_idempotent_witness :
  normalize env_up (hd [] live_products)
  = Ok [ ("_id", VStr "65a1b2c3d4e5f60718293a4b");
         ("title", VStr "Obsidian Desk Clock");
         ("price", VFloat 350.0%float);
         ("category", VStr "home");
         ("images", VList [ VStr "https://example.com/clock.jpg" ]);
         ("in_stock", VBool true);
         ("featured", VBool false) ]
  /\ normalize env_up
       [ ("_id", VStr "65a1b2c3d4e5f60718293a4b");
         ("title", VStr "Obsidian Desk Clock");
         ("price", VFloat 350.0%float);
         ("category", VStr "home");
         ("images", VList [ VStr "https://example.com/clock.jpg" ]);
         ("in_stock", VBool true);
         ("featured", VBool false) ]
     = Ok [ ("_id", VStr "65a1b2c3d4e5f60718293a4b");
            ("title", VStr "Obsidian Desk Clock");
            ("price", VFloat 350.0%float);
            ("category", VStr "home");
            ("images", VList [ VStr "https://example.com/clock.jpg" ]);
            ("in_stock", VBool true);
            ("featured", VBool false) ].
Proof.
  assert (H : normalize env_up (hd [] live_products)
              = Ok [ ("_id", VStr "65a1b2c3d4e5f60718293a4b");
                     ("title", VStr "Obsidian Desk Clock");
                     ("price", VFloat 350.0%float);
                     ("category", VStr "home");
                     ("images", VList [ VStr "https://example.com/clock.jpg" ]);
                     ("in_stock", VBool true);
                     ("featured", VBool false) ]) by reflexivity.
  split; [exact H|].
  exact (normalize_idempotent env_up _ _ (fun s => eq_refl) H).
Defined.

(** ** Diagnostics *)

Lemma join_code_points (s : string) : join (code_points s) = s.
Proof.
  induction s as [|c s IH]; simpl; [reflexivity|].
  destruct (code_points s) as [|p ps]; simpl in *.
  - rewrite <- IH. reflexivity.
  - destruct (continues p); simpl; rewrite <- IH; reflexivity.
Qed.

Lemma continues_all_continuation (t : string) :
  all_continuation t = true -> t <> EmptyString -> continues t = true.
Proof.
  destruct t as [|c t]; simpl; [congruence|].
  intros H _. apply andb_true_iff in H. exact (proj1 H).
Qed.

Lemma code_points_split_form (s : string) : split_form (code_points s).
Proof.
  induction s as [|c s IH]; simpl; [exact I|].
  destruct (code_points s) as [|p ps]; simpl in *.
  - split; [reflexivity | constructor].
  - destruct IH as [Hp Hps]. destruct (continues p) eqn:Hc; simpl.
    + split; [|exact Hps].
      destruct p as [|c' t]; simpl in *; [discriminate|].
      rewrite Hc, Hp. reflexivity.
    + split; [reflexivity|]. constructor; [|exact Hps].
      unfold is_leading. rewrite Hp, Hc. reflexivity.
Qed.

Lemma code_points_continuation (t rest : string) :
  all_continuation t = true -> t <> EmptyString ->
  starts_clean (code_points rest) ->
  code_points (t ++ rest) = t :: code_points rest.
Proof.
  intros Ht Hne Hrest. induction t as [|c t IH]; [congruence|].
  simpl in Ht. apply andb_true_iff in Ht. destruct Ht as [_ Ht].
  simpl. destruct t as [|c' t].
  - simpl. destruct (code_points rest) as [|q qs]; [reflexivity|].
    simpl in Hrest. rewrite Hrest. reflexivity.
  - rewrite (IH Ht) by discriminate.
    rewrite (continues_all_continuation (String c' t) Ht) by discriminate.
    reflexivity.
Qed.

Lemma code_points_character (p rest : string) :
  is_character p = true -> starts_clean (code_points rest) ->
  code_points (p ++ rest) = p :: code_points rest.
Proof.
  destruct p as [|c t]; simpl; [discriminate|]. intros Ht Hrest.
  destruct t as [|c' t].
  - simpl. destruct (code_points rest) as [|q qs]; [reflexivity|].
    simpl in Hrest. rewrite Hrest. reflexivity.
  - rewrite (code_points_continuation (String c' t) rest Ht)
      by (discriminate || exact Hrest).
    rewrite (continues_all_continuation (String c' t) Ht) by discriminate.
    reflexivity.
Qed.

Lemma leading_starts_clean (ps : list string) :
  Forall (fun q => is_leading q = true) ps -> starts_clean ps.
Proof.
  intros [|q qs Hq _]; simpl; [exact I|].
  unfold is_leading in Hq. apply andb_true_iff in Hq.
  apply negb_true_iff. exact (proj2 Hq).
Qed.

Lemma code_points_join_leading (ps : list string) :
  Forall (fun q => is_leading q = true) ps -> code_points (join ps) = ps.
Proof.
  induction 1 as [|p ps Hp Hps IH]; simpl; [reflexivity|].
  unfold is_leading in Hp. apply andb_true_iff in Hp. destruct Hp as [Hp _].
  rewrite (code_points_character p (join ps) Hp); rewrite IH;
    [reflexivity | exact (leading_starts_clean ps Hps)].
Qed.

Lemma code_points_join (ps : list string) :
  split_form ps -> code_points (join ps) = ps.
Proof.
  destruct ps as [|p ps]; simpl; [reflexivity|]. intros [Hp Hps].
  rewrite (code_points_character p (join ps) Hp);
    rewrite (code_points_join_leading ps Hps);
    [reflexivity | exact (leading_starts_clean ps Hps)].
Qed.

Lemma Forall_firstn_keeps {A : Type} (P : A -> Prop) (n : nat) (l : list A) :
  Forall P l -> Forall P (firstn n l).
Proof.
  revert n. induction l as [|a l IH]; intros [|n] H; simpl; try constructor.
  - inversion H; assumption.
  - apply IH. inversion H; assumption.
Qed.

Lemma split_form_firstn (n : nat) (ps : list string) :
  split_form ps -> split_form (firstn n ps).
Proof.
  destruct n as [|n], ps as [|p ps]; simpl; auto.
  intros [Hp Hps]. split; [exact Hp | apply Forall_firstn_keeps; exact Hps].
Qed.

(** A slice has the characters it was cut to. *)
Lemma code_points_slice_to (n : nat) (s : string) :
  code_points (slice_to n s) = firstn n (code_points s).
Proof.
  unfold slice_to. apply code_points_join. apply split_form_firstn.
  apply code_points_split_form.
Qed.

(** Characters outside ASCII are iterated and cut whole. *)
Lemma iter_non_ascii :
  iter (VStr "é⚠x") = Ok [ VStr "é"; VStr "⚠"; VStr "x" ].
Proof. reflexivity. Qed.

Lemma normalize_non_ascii_images :
  normalize env_up [ ("_id", VStr "a"); ("images", VStr "éa") ]
  = Ok [ ("_id", VStr "a"); ("images", VList [ VStr "é"; VStr "a" ]) ].
Proof. reflexivity. Qed.

Lemma slice_to_non_ascii :
  slice_to 3 "éé⚠éx" = "éé⚠" /\ String.length (slice_to 3 "éé⚠éx") = 7.
Proof. split; reflexivity. Qed.

(** X14.  The report of [test_database] always has the same six fields in
    the same order, with the backend reported as running, whatever the handle
    and the environment are and whichever call raises. *)
Theorem test_database_fields (db : option Diagnostics.Database)
  (getenv : string -> option string) :
  map fst (Diagnostics.test_database db getenv)
  = [ "backend"; "database"; "database_url"; "database_name";
      "connection_status"; "collections" ]
  /\ dict_get "backend" (Diagnostics.test_database db getenv)
     = VStr "✅ Running".
Proof.
  unfold Diagnostics.test_database, Diagnostics.body,
    Diagnostics.name_or_default, Diagnostics.probe.
  destruct db as [[[[n|e]|] [cs|e']]|]; split; reflexivity.
Qed.

(** X15.  The two configuration fields of the report depend on the
    environment alone: each says "Set" exactly when its variable is defined
    and not empty.  What the handler wrote there before, "Configured" and the
    name of the database, never reaches the caller. *)
Theorem test_database_configuration (db : option Diagnostics.Database)
  (getenv : string -> option string) :
  dict_get "database_url" (Diagnostics.test_database db getenv)
  = VStr (if truthy (getenv "DATABASE_URL") then "✅ Set" else "❌ Not Set")
  /\ dict_get "database_name" (Diagnostics.test_database db getenv)
     = VStr (if truthy (getenv "DATABASE_NAME") then "✅ Set"
             else "❌ Not Set").
Proof.
  unfold Diagnostics.test_database, Diagnostics.body,
    Diagnostics.name_or_default, Diagnostics.probe.
  destruct db as [[[[n|e]|] [cs|e']]|]; split; reflexivity.
Qed.

(** X16.  The report lists at most 10 collections: the first 10 names, in
    order, when the handle is there, its name can be read and the listing
    succeeds, and none in every other case. *)
Theorem test_database_collections (db : option Diagnostics.Database)
  (getenv : string -> option string) :
  exists names,
    dict_get "collections" (Diagnostics.test_database db getenv)
    = VList (map VStr names)
    /\ length names <= 10
    /\ names = match db with
               | Some h =>
                   match Diagnostics.name_or_default h,
                         Diagnostics.list_collection_names h with
                   | Ok _, Ok collections => firstn 10 collections
                   | _, _ => []
                   end
               | None => []
               end.
Proof.
  eexists. split; [|split; [|reflexivity]].
  - unfold Diagnostics.test_database, Diagnostics.body,
      Diagnostics.name_or_default, Diagnostics.probe.
    destruct db as [[[[n|e]|] [cs|e']]|]; reflexivity.
  - unfold Diagnostics.name_or_default.
    destruct db as [[[[n|e]|] [cs|e']]|];
      cbn [Diagnostics.name Diagnostics.list_collection_names];
      try apply firstn_le_length; simpl; lia.
Qed.

(** X17.  The report says "Connected" exactly when there is a handle whose
    name can be read.  If listing the collections then raises, the database
    field carries at most the first 50 characters of the message; if reading
    the name raises, the status stays "Not Connected" and the database field
    carries the error, cut the same way.  The cut counts characters, not
    bytes: what is kept is the first 50 characters of the message. *)
Theorem test_database_status (db : option Diagnostics.Database)
  (getenv : string -> option string) :
  (dict_get "connection_status" (Diagnostics.test_database db getenv)
   = VStr "Connected"
   <-> exists h n, db = Some h /\ Diagnostics.name_or_default h = Ok n)
  /\ (forall h n e,
        db = Some h -> Diagnostics.name_or_default h = Ok n ->
        Diagnostics.list_collection_names h = Raise e ->
        dict_get "database" (Diagnostics.test_database db getenv)
        = VStr ("⚠️  Connected but Error: " ++ slice_to 50 e))
  /\ (forall h e,
        db = Some h -> Diagnostics.name_or_default h = Raise e ->
        dict_get "database" (Diagnostics.test_database db getenv)
        = VStr ("❌ Error: " ++ slice_to 50 e)
        /\ dict_get "connection_status" (Diagnostics.test_database db getenv)
           = VStr "Not Connected")
  /\ forall e, code_points (slice_to 50 e) = firstn 50 (code_points e)
               /\ length (code_points (slice_to 50 e)) <= 50.
Proof.
  split; [|split; [|split]].
  - unfold Diagnostics.test_database, Diagnostics.body,
      Diagnostics.name_or_default, Diagnostics.probe.
    destruct db as [[[[n|e]|] [cs|e']]|];
      cbn [Diagnostics.name Diagnostics.list_collection_names]; split;
      try (intros _; eexists; eexists; split; reflexivity);
      try (intros _; reflexivity);
      try (intro H; discriminate H);
      try (intros [h [n' [H1 H2]]]; try discriminate H1;
           injection H1 as <-; discriminate H2).
  - intros h n e -> Hn He.
    unfold Diagnostics.test_database, Diagnostics.body, Diagnostics.probe.
    rewrite Hn, He. reflexivity.
  - intros h e -> Hn.
    unfold Diagnostics.test_database, Diagnostics.body.
    rewrite Hn. split; reflexivity.
  - intro e. rewrite code_points_slice_to. split; [reflexivity|].
    apply firstn_le_length.
Qed.

Lemma test_database_status_witness :
  dict_get "connection_status" (Diagnostics.test_database (Some a_handle) no_env)
  = VStr "Connected".
Proof.
  apply (proj1 (test_database_status (Some a_handle) no_env)).
  exists a_handle, "luxuria". split; reflexivity.
Defined.
